(** * The Deep Lake vector-store adapter (dotagent/vectorstores/deeplake.py)

    A shallow embedding of the [DeepLake] class: construction, [add_texts],
    the raw-query and vector search paths, [similarity_search] and
    [from_texts].  The vector engine, the embedding provider and numpy are
    external collaborators: the engine is an oracle answering each call from
    the history of calls made so far, and every call the adapter makes is
    appended to a log.  Python exceptions are results of the computation; they
    keep the effects performed before they were raised. *)

From stdpp Require Import gmap strings list fin_maps.
From Stdlib Require Import ZArith.

Local Open Scope Z_scope.
Local Open Scope string_scope.

(** ** Exceptions and outcomes *)

(** An exception raised inside the vector engine (third-party code). *)
Inductive engine_exn :=
| EngineFailure (msg : string).

(** The exceptions a call of the adapter can end with.  The adapter itself
    only raises [ValueError]; [NameError] and [AttributeError] come from the
    Python runtime, [EngineError] propagates a failure of the engine. *)
Inductive exn :=
| ValueError (msg : string)
| NameError (name : string)
| AttributeError (obj attr : string)
| EngineError (e : engine_exn).

Inductive outcome (A : Type) :=
| Return (a : A)
| Raise (e : exn).
Arguments Return {A} a.
Arguments Raise {A} e.

(** The three error kinds of the specification are all [ValueError] in the
    code; they are told apart by their message. *)
Definition deprecated_embedding_error : exn :=
  ValueError ("using embedding as embedidng_functions is deprecated. "
              ++ "Please use `embedding_function` instead.").
Definition not_installed_error : exn :=
  ValueError ("Could not import deeplake python package. "
              ++ "Please install it with `pip install deeplake`.").
Definition version_error (installed_version : string) : exn :=
  ValueError ("deeplake version should be >= 3.6.3, but you've installed"
              ++ " " ++ installed_version
              ++ ". Consider upgrading deeplake version "
              ++ "                    pip install --upgrade deeplake.").
Definition mutually_exclusive_error : exn :=
  ValueError "You must provide either query embeddings or query texts, but not both".
Definition missing_embedding_source_error : exn :=
  ValueError "Either `embedding` or `embedding_function` needs to be specified.".
Definition tql_scores_error : exn :=
  ValueError "scores can't be returned with tql search".

(** ** numpy *)

(** numpy arrays are opaque; only the operations [_search] performs on them
    are named.  [np_array_float32 l] is [np.array(l, dtype=np.float32)] on a
    list of floats or on a batch of equal-length rows, [shape_len a] is
    [len(a.shape)] and [getitem0 a] is [a[0]]. *)
Class NumPy : Type := {
  float : Type;
  ndarray : Type;
  np_array_float32 : list float + list (list float) -> ndarray;
  shape_len : ndarray -> nat;
  getitem0 : ndarray -> ndarray;
}.

Section Adapter.
Context `{NumPy}.

(** ** Python values *)

(** Values stored in a metadata mapping (string -> any). *)
Inductive pyval :=
| VNone
| VBool (b : bool)
| VInt (z : Z)
| VFloat (x : float)
| VStr (s : string)
| VArray (a : ndarray).

(** Dict objects live in a store and are handed around by reference. *)
Definition loc := nat.

(** A value given as the [embedding] argument, or returned by a query
    embedding function: a Python list, or an array. *)
Inductive embedding_value :=
| EList (l : list float + list (list float))
| EArray (a : ndarray).

(** The [Embeddings] interface. *)
Record Embeddings := {
  embed_query : string -> embedding_value;
  embed_documents : list string -> list (list float);
}.

(** The [embedding_function] argument of [_search]: an [Embeddings] object or
    a plain callable. *)
Inductive embedding_function_arg :=
| AsEmbeddings (e : Embeddings)
| AsCallable (f : string -> embedding_value).

(** The [filter] argument of [_search], passed through to the engine. *)
Inductive filter_arg :=
| FilterDict (d : gmap string (gmap string pyval))
| FilterCallable (f : gmap string pyval -> bool).

(** Values of keyword-argument dictionaries. *)
Inductive kwarg :=
| KwNone
| KwBool (b : bool)
| KwStr (s : string)
| KwStrings (l : list string)
| KwCallable (f : list string -> list (list float)).

(** Python truth value. *)
Definition truthy_str (s : string) : bool :=
  match s with EmptyString => false | _ => true end.

Definition truthy_opt_str (s : option string) : bool :=
  match s with Some s => truthy_str s | None => false end.

Definition truthy_kwarg (v : kwarg) : bool :=
  match v with
  | KwNone => false
  | KwBool b => b
  | KwStr s => truthy_str s
  | KwStrings l => match l with [] => false | _ => true end
  | KwCallable _ => true
  end.

Definition is_none {A} (x : option A) : bool :=
  match x with None => true | Some _ => false end.

Definition truthy_get (kwargs : gmap string kwarg) (key : string) : bool :=
  match kwargs !! key with Some v => truthy_kwarg v | None => false end.

(** ** Calls into the vector engine *)

Record open_args := {
  o_path : string;
  o_embedding_function : option Embeddings;
  o_read_only : bool;
  o_token : option string;
  o_exec_option : string;
  o_verbose : bool;
  o_kwargs : gmap string kwarg;
}.

Record add_args := {
  a_text : list string;
  a_metadata : list (gmap string pyval);
  a_embedding_data : list string;
  a_embedding_tensor : string;
  a_embedding_function : kwarg;
  a_return_ids : bool;
  a_kwargs : gmap string kwarg;
}.

Inductive search_args :=
| TqlSearch (query : option string) (exec_option : option string)
| VectorSearch (embedding : option ndarray) (k : Z) (distance_metric : string)
    (filter : option filter_arg) (exec_option : option string)
    (return_tensors : list string).

(** A [DeepLakeVectorStore] handle: the position of its constructor call in
    the log. *)
Definition handle := nat.

Inductive engine_call :=
| COpen (args : open_args)
| CTensors (vs : handle)
| CAdd (vs : handle) (args : add_args)
| CSearch (vs : handle) (args : search_args).

(** What [vectorstore.search] returns: four positionally aligned columns,
    each a Python list; the metadata column holds references to dict
    objects. *)
Record search_result := {
  r_score : list float;
  r_embedding : list ndarray;
  r_metadata : list loc;
  r_text : list string;
}.

(** The environment: whether the deeplake package could be imported, its
    version, and the engine's answers, each a function of the calls made so
    far.  A search also allocates the dict objects of its rows in the
    store. *)
Record Backend := {
  _DEEPLAKE_INSTALLED : bool;
  deeplake_version : string;
  version_compare : string -> string -> Z;
  vs_open : list engine_call -> open_args -> option engine_exn;
  vs_tensors : list engine_call -> handle -> list string;
  vs_add : list engine_call -> handle -> add_args -> engine_exn + list string;
  vs_search : list engine_call -> handle -> search_args ->
              gmap loc (gmap string pyval) ->
              (engine_exn + search_result) * gmap loc (gmap string pyval);
}.

Variable B : Backend.

(** ** The monad of adapter computations *)

Record world := {
  calls : list engine_call;
  store : gmap loc (gmap string pyval);
}.

Definition M (A : Type) : Type := world -> outcome A * world.

Definition ret {A} (a : A) : M A := fun w => (Return a, w).
Definition raise {A} (e : exn) : M A := fun w => (Raise e, w).
Definition bind {A C} (m : M A) (f : A -> M C) : M C :=
  fun w => match m w with
           | (Return a, w') => f a w'
           | (Raise e, w') => (Raise e, w')
           end.

Notation "x <- m ;; f" := (bind m (fun x => f))
  (at level 100, m at next level, right associativity).

Definition log (c : engine_call) (w : world) : world :=
  {| calls := calls w ++ [c]; store := store w |}.

Definition of_engine {A} (r : engine_exn + A) : outcome A :=
  match r with inl e => Raise (EngineError e) | inr a => Return a end.

(** [DeepLakeVectorStore(...)] *)
Definition call_open (args : open_args) : M handle :=
  fun w => (match vs_open B (calls w) args with
            | Some e => Raise (EngineError e)
            | None => Return (length (calls w))
            end, log (COpen args) w).

(** [vectorstore.tensors()] *)
Definition call_tensors (vs : handle) : M (list string) :=
  fun w => (Return (vs_tensors B (calls w) vs), log (CTensors vs) w).

(** [vectorstore.add(...)] *)
Definition call_add (vs : handle) (args : add_args) : M (list string) :=
  fun w => (of_engine (vs_add B (calls w) vs args), log (CAdd vs args) w).

(** [vectorstore.search(...)] *)
Definition call_search (vs : handle) (args : search_args) : M search_result :=
  fun w => let '(r, st) := vs_search B (calls w) vs args (store w) in
           (of_engine r, {| calls := calls w ++ [CSearch vs args]; store := st |}).

Definition get_store : M (gmap loc (gmap string pyval)) :=
  fun w => (Return (store w), w).
Definition put_store (st : gmap loc (gmap string pyval)) : M unit :=
  fun w => (Return tt, {| calls := calls w; store := st |}).

(** ** Documents *)

(** Modelled from the spec: [dotagent.schema.Document] is not among the
    sources; the spec gives it as {page_content: text, metadata: mapping}.
    The metadata field holds the dict object it was constructed with. *)
Record Document := {
  page_content : string;
  metadata : loc;
}.

Inductive search_output :=
| Docs (docs : list Document)
| DocsWithScores (pairs : list (Document * float)).

(** ** The adapter *)

Record DeepLake := {
  ingestion_batch_size : Z;
  num_workers : Z;
  verbose : bool;
  dataset_path : string;
  vectorstore : handle;
  _embedding_function : option Embeddings;
  _id_tensor_name : string;
}.

Definition DEFAULT_DATASET_PATH : string := "./deeplake/".

(** The keyword arguments of [__init__] other than [dataset_path] and
    [embedding_function]; [i_kwargs] are the remaining, backend-specific
    ones. *)
Record init_kwargs := {
  i_token : option string;
  i_read_only : bool;
  i_ingestion_batch_size : Z;
  i_num_workers : Z;
  i_verbose : bool;
  i_exec_option : string;
  i_kwargs : gmap string kwarg;
}.

Definition init_defaults : init_kwargs := {|
  i_token := None;
  i_read_only := false;
  i_ingestion_batch_size := 1000;
  i_num_workers := 0;
  i_verbose := true;
  i_exec_option := "python";
  i_kwargs := ∅;
|}.

Definition __init__ (dataset_path : string)
    (embedding_function : option Embeddings) (kw : init_kwargs) : M DeepLake :=
  if negb (_DEEPLAKE_INSTALLED B) then raise not_installed_error
  else if Z.eqb (version_compare B (deeplake_version B) "3.6.2") (-1)
  then raise (version_error (deeplake_version B))
  else
    vs <- call_open {| o_path := dataset_path;
                       o_embedding_function := embedding_function;
                       o_read_only := i_read_only kw;
                       o_token := i_token kw;
                       o_exec_option := i_exec_option kw;
                       o_verbose := i_verbose kw;
                       o_kwargs := i_kwargs kw |} ;;
    tensors <- call_tensors vs ;;
    ret {| ingestion_batch_size := i_ingestion_batch_size kw;
           num_workers := i_num_workers kw;
           verbose := i_verbose kw;
           dataset_path := dataset_path;
           vectorstore := vs;
           _embedding_function := embedding_function;
           _id_tensor_name :=
             if bool_decide ("ids" ∈ tensors) then "ids" else "id" |}.

(** [add_texts]: the keyword arguments received are overwritten by an empty
    dict on entry; that dict only ever holds the ids, under "ids" or "id".
    [texts] is a list, of which [len(list(texts))] is the length.
    [[{}] * n] is a list of n references to one empty dict, which the engine
    only reads: the metadata column is passed by value. *)
Definition add_texts (self : DeepLake) (texts : list string)
    (metadatas : option (list (gmap string pyval)))
    (ids : option (list string)) (kwargs : gmap string kwarg)
    : M (list string) :=
  let kwargs : gmap string kwarg := ∅ in
  let kwargs :=
    match ids with
    | Some ((_ :: _) as ids) =>
        if String.eqb (_id_tensor_name self) "ids"
        then <["ids" := KwStrings ids]> kwargs
        else <["id" := KwStrings ids]> kwargs
    | _ => kwargs
    end in
  let metadatas :=
    match metadatas with
    | None => replicate (length texts) ∅
    | Some metadatas => metadatas
    end in
  embedding_function <-
    (if truthy_get kwargs "embedding_function"
     then ret (default KwNone (kwargs !! "embedding_function"))
     else match _embedding_function self with
          | Some e => ret (KwCallable (embed_documents e))
          | None => raise (AttributeError "NoneType" "embed_documents")
          end) ;;
  call_add (vectorstore self)
    {| a_text := texts;
       a_metadata := metadatas;
       a_embedding_data := texts;
       a_embedding_tensor := "embedding";
       a_embedding_function := embedding_function;
       a_return_ids := true;
       a_kwargs := kwargs |}.

(** [_search_tql]: the raw query is run first, the documents are built, and
    only then is [return_score] looked at. *)
Definition _search_tql (self : DeepLake) (tql_query : option string)
    (exec_option : option string) (return_score : bool) : M search_output :=
  result <- call_search (vectorstore self) (TqlSearch tql_query exec_option) ;;
  let metadatas := r_metadata result in
  let texts := r_text result in
  let docs := zip_with Build_Document texts metadatas in
  if return_score then raise tql_scores_error
  else ret (Docs docs).

(** [meta['embedding'] = embed] on the dict object at [meta]. *)
Definition set_embedding (st : gmap loc (gmap string pyval)) (meta : loc)
    (embed : ndarray) : gmap loc (gmap string pyval) :=
  alter (insert "embedding" (VArray embed)) meta st.

(** The loop [for meta, embed in zip(metadatas, embeddings)]: the iterator
    over [metadatas] reads the list at index [i] while the body appends to
    that same list; [zip] asks [metadatas] first and stops as soon as one
    side is exhausted. *)
Fixpoint merge_embeddings (i : nat) (embeddings : list ndarray)
    (metadatas : list loc) (st : gmap loc (gmap string pyval))
    : list loc * gmap loc (gmap string pyval) :=
  match metadatas !! i with
  | None => (metadatas, st)
  | Some meta =>
      match embeddings with
      | [] => (metadatas, st)
      | embed :: embeddings =>
          merge_embeddings (S i) embeddings (metadatas ++ [meta])
            (set_embedding st meta embed)
      end
  end.

(** A list becomes a float32 array, of which the first row is kept when it
    has more than one dimension; anything else is passed on as it is. *)
Definition normalize_embedding (embedding : option embedding_value)
    : option ndarray :=
  match embedding with
  | Some (EList l) =>
      let a := np_array_float32 l in
      Some (if decide (1 < shape_len a)%nat then getitem0 a else a)
  | Some (EArray a) => Some a
  | None => None
  end.

(** [_search]; of its [**kwargs] only [tql_query] is read. *)
Definition _search (self : DeepLake) (query : option string)
    (embedding : option embedding_value)
    (embedding_function : option embedding_function_arg) (k : Z)
    (distance_metric : string) (filter : option filter_arg)
    (return_score : bool) (exec_option : option string)
    (tql_query : option string) : M search_output :=
  if truthy_opt_str tql_query
  then _search_tql self tql_query exec_option return_score
  else
    let _embedding_function :=
      match embedding_function with
      | Some (AsEmbeddings e) => Some (embed_query e)
      | Some (AsCallable f) => Some f
      | None =>
          match _embedding_function self with
          | Some e => Some (embed_query e)
          | None => None
          end
      end in
    embedding <-
      match embedding with
      | None =>
          match _embedding_function with
          | None => raise missing_embedding_source_error
          | Some f =>
              ret (match query with
                   | Some q => if truthy_str q then Some (f q) else None
                   | None => None
                   end)
          end
      | Some _ => ret embedding
      end ;;
    let embedding := normalize_embedding embedding in
    result <- call_search (vectorstore self)
                (VectorSearch embedding k distance_metric filter exec_option
                   ["embedding"; "metadata"; "text"]) ;;
    let scores := r_score result in
    let embeddings := r_embedding result in
    let metadatas := r_metadata result in
    let texts := r_text result in
    st <- get_store ;;
    let '(metadatas, st) := merge_embeddings 0 embeddings metadatas st in
    _ <- put_store st ;;
    let docs := zip_with Build_Document texts metadatas in
    if return_score then ret (DocsWithScores (zip docs scores))
    else ret (Docs docs).

(** The keyword arguments [similarity_search] forwards to [_search]; [None]
    stands for an argument that is not passed, for which [_search] takes its
    default. *)
Record search_kwargs := {
  kw_embedding_function : option embedding_function_arg;
  kw_distance_metric : option string;
  kw_filter : option filter_arg;
  kw_return_score : option bool;
  kw_exec_option : option string;
  kw_tql_query : option string;
}.

Definition similarity_search (self : DeepLake) (query : option string)
    (embedding : option embedding_value) (k : Z) (kwargs : search_kwargs)
    : M search_output :=
  if (is_none embedding && is_none query)
     || (negb (is_none embedding) && negb (is_none query))
  then raise mutually_exclusive_error
  else
    _search self query embedding (kw_embedding_function kwargs) k
      (default "L2" (kw_distance_metric kwargs)) (kw_filter kwargs)
      (default true (kw_return_score kwargs)) (kw_exec_option kwargs)
      (kw_tql_query kwargs).

(** ** Name resolution in [from_texts] *)

(** What a name is bound to, as far as [from_texts] is concerned. *)
Inductive pyobject :=
| ObjEmbeddings (e : Embeddings)
| ObjNone
| ObjOther.

(** The names bound at module level, and the local names of [from_texts]
    (its parameters and [deeplake_dataset]).  No Python builtin is called
    [embedding]. *)
Definition module_globals : list string :=
  ["annotations"; "logging"; "Any"; "Callable"; "Dict"; "Iterable"; "List";
   "Optional"; "Tuple"; "Union"; "np"; "deeplake"; "version_compare";
   "DeepLakeVectorStore"; "_DEEPLAKE_INSTALLED"; "Document"; "Embeddings";
   "VectorStore"; "logger"; "DEFAULT_DATASET_PATH"; "DeepLake"].

Definition from_texts_locals : list string :=
  ["cls"; "texts"; "embedding_function"; "metadatas"; "ids"; "dataset_path";
   "kwargs"; "deeplake_dataset"].

Definition from_texts_scope (embedding_function : option Embeddings)
    : gmap string pyobject :=
  <["embedding_function" :=
      match embedding_function with
      | Some e => ObjEmbeddings e
      | None => ObjNone
      end]>
  (list_to_map ((fun name => (name, ObjOther))
                  <$> (from_texts_locals ++ module_globals)%list)).

Definition load_name (scope : gmap string pyobject) (name : string)
    : M pyobject :=
  match scope !! name with
  | Some o => ret o
  | None => raise (NameError name)
  end.

(** [o.embed_documents] *)
Definition getattr_embed_documents (o : pyobject) : M kwarg :=
  match o with
  | ObjEmbeddings e => ret (KwCallable (embed_documents e))
  | ObjNone => raise (AttributeError "NoneType" "embed_documents")
  | ObjOther => raise (AttributeError "object" "embed_documents")
  end.

(** [from_texts]: the arguments of the [add_texts] call are evaluated before
    the call is made; the last of them reads the name [embedding]. *)
Definition from_texts (texts : list string)
    (embedding_function : option Embeddings)
    (metadatas : option (list (gmap string pyval)))
    (ids : option (list string)) (dataset_path : string)
    (kwargs : init_kwargs) : M DeepLake :=
  if truthy_get (i_kwargs kwargs) "embedding"
  then raise deprecated_embedding_error
  else
    deeplake_dataset <- __init__ dataset_path embedding_function kwargs ;;
    embedding <- load_name (from_texts_scope embedding_function) "embedding" ;;
    embed_documents <- getattr_embed_documents embedding ;;
    _ <- add_texts deeplake_dataset texts metadatas ids
           {["embedding_function" := embed_documents]} ;;
    ret deeplake_dataset.

End Adapter.

(** ** What the documents of a search look like from outside *)

Section Views.
Context `{NumPy}.




Definition is_add (c : engine_call) : bool :=
  match c with CAdd _ _ => true | _ => false end.

Definition is_search (c : engine_call) : bool :=
  match c with CSearch _ _ => true | _ => false end.

(** Number of insertions (resp. searches) the engine has been asked for. *)
Definition count_adds (w : world) : nat :=
  length (List.filter is_add (calls w)).
Definition count_searches (w : world) : nat :=
  length (List.filter is_search (calls w)).

End Views.

(** ** The two ends of a search, written out *)

Section Runs.
Context `{NumPy} (B : Backend).

(** The world after one engine search. *)
Definition searched (w : world) (vs : handle) (args : search_args)
    (st : gmap loc (gmap string pyval)) : world :=
  {| calls := calls w ++ [CSearch vs args]; store := st |}.

(** The vector path of [_search] once the query embedding is known. *)
Definition vector_search_run (self : DeepLake) (embedding : option embedding_value) (k : Z)
    (distance_metric : string) (filter : option filter_arg)
    (return_score : bool) (exec_option : option string) (w : world)
    : outcome search_output * world :=
  let args := VectorSearch (normalize_embedding embedding) k distance_metric
                filter exec_option ["embedding"; "metadata"; "text"] in
  let r := vs_search B (calls w) (vectorstore self) args (store w) in
  match r.1 with
  | inl e => (Raise (EngineError e), searched w (vectorstore self) args r.2)
  | inr res =>
      let m := merge_embeddings 0 (r_embedding res) (r_metadata res) r.2 in
      let docs := zip_with Build_Document (r_text res) m.1 in
      (Return (if return_score then DocsWithScores (zip docs (r_score res))
               else Docs docs),
       searched w (vectorstore self) args m.2)
  end.

End Runs.

(** ** A concrete environment

    A small numpy (integers for floats, vectors and matrices for arrays), a
    provider and an engine holding two rows; used to run the adapter on
    concrete inputs. *)

Module Demo.

Inductive array :=
| Vec (xs : list Z)
| Mat (rows : list (list Z)).

#[local] Instance numpy : NumPy := {|
  float := Z;
  ndarray := array;
  np_array_float32 l :=
    match l with
    | inl xs => Vec xs
    | inr [] => Vec []
    | inr rows => Mat rows
    end;
  shape_len a := match a with Vec _ => 1%nat | Mat _ => 2%nat end;
  getitem0 a := match a with Mat (row :: _) => Vec row | _ => a end;
|}.

Definition provider : @Embeddings numpy := {|
  embed_query q := EList (inl [Z.of_nat (String.length q) : float]);
  embed_documents texts :=
    (fun t => [Z.of_nat (String.length t) : float]) <$> texts;
|}.

(** The dict objects of the two stored rows. *)
Definition objects : gmap loc (gmap string (@pyval numpy)) :=
  <[0%nat := {["source" := VStr "a.txt"]}]>
  (<[1%nat := {["source" := VStr "b.txt"]}]> ∅).

Definition rows (n : nat) : @search_result numpy := {|
  r_score := take n [10; 20];
  r_embedding := take n [Vec [1; 0]; Vec [0; 1]];
  r_metadata := take n [0%nat; 1%nat];
  r_text := take n ["alpha"; "beta"];
|}.

Definition caller_ids (args : @add_args numpy) : option (list string) :=
  match a_kwargs args !! "ids", a_kwargs args !! "id" with
  | Some (KwStrings l), _ => Some l
  | _, Some (KwStrings l) => Some l
  | _, _ => None
  end.

(** An engine whose dataset has the given field names, which answers an
    insertion with the caller's ids or with generated ones, a raw query with
    both rows and a vector search with at most [k] rows. *)
Definition backend (fields : list string) : @Backend numpy := {|
  _DEEPLAKE_INSTALLED := true;
  deeplake_version := "3.6.3";
  version_compare _ _ := 1;
  vs_open _ _ := None;
  vs_tensors _ _ := fields;
  vs_add _ _ args :=
    inr (default ((fun t => "id-" ++ t) <$> a_text args) (caller_ids args));
  vs_search _ _ args _ :=
    match args with
    | TqlSearch _ _ => (inr (rows 2), objects)
    | VectorSearch _ k _ _ _ _ => (inr (rows (Z.to_nat k)), objects)
    end;
|}.

(** An engine that ignores [k] and always answers with both rows. *)
Definition greedy_backend : @Backend numpy := {|
  _DEEPLAKE_INSTALLED := true;
  deeplake_version := "3.6.3";
  version_compare _ _ := 1;
  vs_open _ _ := None;
  vs_tensors _ _ := ["text"; "metadata"; "embedding"; "id"];
  vs_add _ _ args := inr [];
  vs_search _ _ _ _ := (inr (rows 2), objects);
|}.

Definition fresh : @world numpy := {| calls := []; store := ∅ |}.

(** Field names of a dataset whose id field is called "id". *)
Definition fields : list string := ["text"; "metadata"; "embedding"; "id"].

Definition query_vector : @embedding_value numpy := EList (inl [1; 0]).

Definition adapter (id_name : string) : @DeepLake numpy := {|
  ingestion_batch_size := 1000;
  num_workers := 0;
  verbose := true;
  dataset_path := DEFAULT_DATASET_PATH;
  vectorstore := 0%nat;
  _embedding_function := Some provider;
  _id_tensor_name := id_name;
|}.

Definition no_kwargs : @search_kwargs numpy := {|
  kw_embedding_function := None;
  kw_distance_metric := None;
  kw_filter := None;
  kw_return_score := None;
  kw_exec_option := None;
  kw_tql_query := None;
|}.

Definition without_scores : @search_kwargs numpy := {|
  kw_embedding_function := None;
  kw_distance_metric := None;
  kw_filter := None;
  kw_return_score := Some false;
  kw_exec_option := None;
  kw_tql_query := None;
|}.

End Demo.

(** ** Deleting records and datasets

    [delete], [delete_dataset] and [force_delete_by_path] reach two further
    operations of the engine: [vectorstore.delete] and the module-level
    [deeplake.delete].  Their calls are logged beside the adapter's world,
    each [vectorstore.delete] with the number of engine calls made before
    it. *)

Section Deletion.
Context `{NumPy}.

Record delete_args := {
  d_ids : option (list string);
  d_filter : option (gmap string string);
  d_delete_all : option bool;
}.

Inductive admin_call :=
| CDelete (made_after : nat) (vs : handle) (args : delete_args)
| CForceDelete (path : string) (large_ok force : bool).

(** The engine's side: whether [import deeplake] succeeds inside
    [force_delete_by_path], what [vectorstore.delete] answers (a success
    flag, or a failure) and whether [deeplake.delete] fails. *)
Record Admin := {
  import_deeplake : bool;
  vs_delete : list engine_call -> list admin_call -> handle -> delete_args ->
              engine_exn + bool;
  deeplake_delete : list admin_call -> string -> bool -> bool ->
                    option engine_exn;
}.

Variable A : Admin.

Record admin_world := {
  engine_world : world;
  admin_calls : list admin_call;
}.

Definition admin_log (c : admin_call) (w : admin_world) : admin_world :=
  {| engine_world := engine_world w; admin_calls := admin_calls w ++ [c] |}.

(** [vectorstore.delete(...)] *)
Definition call_delete (vs : handle) (args : delete_args)
    : admin_world -> outcome bool * admin_world :=
  fun w =>
    (of_engine (vs_delete A (calls (engine_world w)) (admin_calls w) vs args),
     admin_log (CDelete (length (calls (engine_world w))) vs args) w).

(** [delete]: the answer of the engine is dropped. *)
Definition delete (self : DeepLake) (ids : option (list string))
    (filter : option (gmap string string)) (delete_all : option bool)
    : admin_world -> outcome bool * admin_world :=
  fun w =>
    match call_delete (vectorstore self)
            {| d_ids := ids; d_filter := filter; d_delete_all := delete_all |}
            w with
    | (Return _, w') => (Return true, w')
    | (Raise e, w') => (Raise e, w')
    end.

(** [force_delete_by_path], a class method: no instance is involved. *)
Definition force_delete_by_path (path : string)
    : admin_world -> outcome unit * admin_world :=
  fun w =>
    if import_deeplake A
    then (match deeplake_delete A (admin_calls w) path true true with
          | Some e => Raise (EngineError e)
          | None => Return tt
          end, admin_log (CForceDelete path true true) w)
    else (Raise not_installed_error, w).

(** [delete_dataset] *)
Definition delete_dataset (self : DeepLake)
    : admin_world -> outcome unit * admin_world :=
  fun w =>
    match delete self None None (Some true) w with
    | (Return _, w') => (Return tt, w')
    | (Raise e, w') => (Raise e, w')
    end.

End Deletion.

Module DemoAdmin.
Import Demo.

(** An engine whose [vectorstore.delete] succeeds but answers [False] when
    it is given no criterion at all, and whose [deeplake.delete] fails on a
    path that was deleted before. *)
Definition admin : @Admin numpy := {|
  import_deeplake := true;
  vs_delete _ _ _ args :=
    inr (negb (is_none (d_ids args) && is_none (d_filter args)
               && is_none (d_delete_all args)));
  deeplake_delete made path _ _ :=
    if existsb (fun c => match c with
                         | CForceDelete p _ _ => String.eqb p path
                         | _ => false
                         end) made
    then Some (EngineFailure "no dataset at this path") else None;
|}.

Definition start : @admin_world numpy :=
  {| engine_world := fresh; admin_calls := [] |}.

End DemoAdmin.

(** ** Searching by embedding: the call made, and a changed option *)

Section Search_calls.
Context `{NumPy}.

(** The arguments of the engine search that [similarity_search] makes when
    it is given the embedding [e]. *)
Definition by_embedding_args (e : embedding_value) (k : Z)
    (kwargs : search_kwargs) : search_args :=
  VectorSearch (normalize_embedding (Some e)) k
    (default "L2" (kw_distance_metric kwargs)) (kw_filter kwargs)
    (kw_exec_option kwargs) ["embedding"; "metadata"; "text"].

(** The keyword arguments [kwargs] with [return_score=b] passed. *)
Definition with_return_score (b : bool) (kwargs : search_kwargs)
    : search_kwargs :=
  {| kw_embedding_function := kw_embedding_function kwargs;
     kw_distance_metric := kw_distance_metric kwargs;
     kw_filter := kw_filter kwargs;
     kw_return_score := Some b;
     kw_exec_option := kw_exec_option kwargs;
     kw_tql_query := kw_tql_query kwargs |}.

End Search_calls.

Module DemoShared.
Import Demo.
#[local] Existing Instance numpy.

(** An answer whose two rows share one dict object. *)
Definition shared_rows : @search_result numpy := {|
  r_score := [10; 20];
  r_embedding := [Vec [1; 0]; Vec [0; 1]];
  r_metadata := [0%nat; 0%nat];
  r_text := ["alpha"; "beta"];
|}.

(** An answer with two texts and embeddings but a single metadata entry. *)
Definition short_rows : @search_result numpy := {|
  r_score := [10; 20];
  r_embedding := [Vec [1; 0]; Vec [0; 1]];
  r_metadata := [1%nat];
  r_text := ["alpha"; "beta"];
|}.

Definition backend_answering (res : @search_result numpy) : @Backend numpy := {|
  _DEEPLAKE_INSTALLED := true;
  deeplake_version := "3.6.3";
  version_compare _ _ := 1;
  vs_open _ _ := None;
  vs_tensors _ _ := fields;
  vs_add _ _ args := inr [];
  vs_search _ _ _ _ := (inr res, objects);
|}.

(** An adapter without provider. *)
Definition bare_adapter : @DeepLake numpy := {|
  ingestion_batch_size := 1000;
  num_workers := 0;
  verbose := true;
  dataset_path := DEFAULT_DATASET_PATH;
  vectorstore := 0%nat;
  _embedding_function := None;
  _id_tensor_name := "id";
|}.

Definition raw_query_kwargs : @search_kwargs numpy := {|
  kw_embedding_function := None;
  kw_distance_metric := None;
  kw_filter := None;
  kw_return_score := None;
  kw_exec_option := Some "compute_engine";
  kw_tql_query := Some "SELECT * WHERE id == 1";
|}.

End DemoShared.

(** * Properties *)

Local Open Scope list_scope.

Section Properties.
Context `{NumPy} (B : Backend).

Implicit Types (self : DeepLake) (w : world) (texts : list string).
Implicit Types (kwargs : gmap string kwarg).

Ltac unfold_monad :=
  unfold bind, ret, raise, call_add, call_open, call_tensors, call_search,
    get_store, put_store, of_engine in *.

(** ** add_texts *)

(** The keyword dictionary built by [add_texts] never has an
    "embedding_function" entry. *)
Lemma ids_kwargs_no_embedding_function (name : string) (ids : list string) :
  truthy_get (if String.eqb name "ids"
              then <["ids" := KwStrings ids]> (∅ : gmap string kwarg)
              else <["id" := KwStrings ids]> ∅) "embedding_function" = false.
Proof.
  unfold truthy_get. destruct (String.eqb name "ids");
    rewrite lookup_insert_ne by discriminate; by rewrite lookup_empty.
Qed.

(** The engine call [add_texts] makes for a provider [p]. *)
Lemma add_texts_call self p texts metadatas ids kwargs w :
  _embedding_function self = Some p ->
  exists args,
    add_texts B self texts metadatas ids kwargs w
    = (of_engine (vs_add B (calls w) (vectorstore self) args),
       log (CAdd (vectorstore self) args) w)
    /\ a_text args = texts
    /\ a_embedding_data args = texts
    /\ a_metadata args = default (replicate (length texts) ∅) metadatas
    /\ a_embedding_function args = KwCallable (embed_documents p)
    /\ a_kwargs args =
       match ids with
       | Some ((_ :: _) as l) =>
           if String.eqb (_id_tensor_name self) "ids"
           then {["ids" := KwStrings l]} else {["id" := KwStrings l]}
       | _ => ∅
       end.
Proof.
  intros Hp. unfold add_texts. rewrite Hp.
  destruct ids as [[|i ids]|]; cbn [truthy_get].
  2: rewrite ids_kwargs_no_embedding_function.
  all: unfold truthy_get; rewrite ?lookup_empty; unfold_monad.
  all: eexists; split; [reflexivity|]; cbn.
  all: destruct metadatas; cbn; repeat split; try reflexivity.
  all: by destruct (String.eqb _ _).
Qed.

(** Without a provider the attribute access fails before the engine is
    reached. *)
Lemma add_texts_no_provider self texts metadatas ids kwargs w :
  _embedding_function self = None ->
  add_texts B self texts metadatas ids kwargs w
  = (Raise (AttributeError "NoneType" "embed_documents"), w).
Proof.
  intros Hp. unfold add_texts. rewrite Hp.
  destruct ids as [[|i ids]|].
  2: rewrite ids_kwargs_no_embedding_function.
  all: unfold truthy_get; rewrite ?lookup_empty; reflexivity.
Qed.



(** C6: for N texts, leaving [metadatas] out is the same call as passing
    any list of N empty mappings: same result, same insertion, whatever the
    ids are. *)
Theorem add_texts_metadatas_omitted self texts
    (metadatas : list (gmap string pyval)) ids kwargs w :
  length metadatas = length texts ->
  Forall (fun m => m = ∅) metadatas ->
  add_texts B self texts None ids kwargs w
  = add_texts B self texts (Some metadatas) ids kwargs w.
Proof.
  intros Hlen Hempty.
  assert (Hrep : replicate (length texts) (∅ : gmap string pyval) = metadatas).
  { apply replicate_as_Forall. split; [done|].
    eapply Forall_impl; [exact Hempty|]. by intros m ->. }
  unfold add_texts. by rewrite Hrep.
Qed.

(** C9: the extra keyword arguments of [add_texts] have no effect: two calls
    that differ only in them are the same computation, and the embedding
    function handed to the engine is the [embed_documents] of the provider
    given at construction (without a provider the call fails before the
    engine is reached). *)
Theorem add_texts_ignores_kwargs self texts metadatas ids kwargs1 kwargs2 w :
  add_texts B self texts metadatas ids kwargs1 w
  = add_texts B self texts metadatas ids kwargs2 w
  /\ match _embedding_function self with
     | Some p =>
         exists args,
           calls (add_texts B self texts metadatas ids kwargs1 w).2
           = calls w ++ [CAdd (vectorstore self) args]
           /\ a_embedding_function args = KwCallable (embed_documents p)
     | None =>
         add_texts B self texts metadatas ids kwargs1 w
         = (Raise (AttributeError "NoneType" "embed_documents"), w)
     end.
Proof.
  split; [reflexivity|].
  destruct (_embedding_function self) as [p|] eqn:Hp.
  - destruct (add_texts_call self p texts metadatas ids kwargs1 w Hp)
      as (args & -> & _ & _ & _ & Hf & _).
    exists args. by split.
  - by apply add_texts_no_provider.
Qed.

(** ** Construction *)

(** What a successful construction has done and stored. *)
Lemma init_returns path ef kw w0 self w1 :
  __init__ B path ef kw w0 = (Return self, w1) ->
  exists args,
    calls w1 = calls w0 ++ [COpen args; CTensors (vectorstore self)]
    /\ o_path args = path
    /\ dataset_path self = path
    /\ _embedding_function self = ef
    /\ _id_tensor_name self =
       (if bool_decide ("ids" ∈ vs_tensors B (calls w0 ++ [COpen args])
                                  (vectorstore self))
        then "ids" else "id").
Proof.
  unfold __init__.
  destruct (negb (_DEEPLAKE_INSTALLED B)); [discriminate|].
  destruct (Z.eqb _ _); [discriminate|].
  unfold_monad. destruct (vs_open B _ _); [discriminate|].
  cbn. intros [= <- <-]. eexists. cbn. rewrite <- app_assoc.
  repeat split; reflexivity.
Qed.

(** C7: construction stores "ids" as the id-field name when the field names
    of the opened dataset include "ids" and "id" otherwise, and every later
    [add_texts] call that is given ids passes them to the engine under that
    name and no other. *)
Theorem id_field_name_resolved path p kw w0 self w1 :
  __init__ B path (Some p) kw w0 = (Return self, w1) ->
  (exists args,
     calls w1 = calls w0 ++ [COpen args; CTensors (vectorstore self)]
     /\ o_path args = path
     /\ _id_tensor_name self
        = if bool_decide ("ids" ∈ vs_tensors B (calls w0 ++ [COpen args])
                                   (vectorstore self))
          then "ids" else "id")
  /\ forall texts metadatas id ids kwargs w,
       exists args,
         calls (add_texts B self texts metadatas (Some (id :: ids)) kwargs w).2
         = calls w ++ [CAdd (vectorstore self) args]
         /\ a_kwargs args = {[_id_tensor_name self := KwStrings (id :: ids)]}.
Proof.
  intros Hinit.
  destruct (init_returns _ _ _ _ _ _ Hinit)
    as (oargs & Hcalls & Hpath & _ & Hp & Hname).
  split.
  - by exists oargs.
  - intros texts metadatas id ids kwargs w.
    destruct (add_texts_call self p texts metadatas (Some (id :: ids))
                kwargs w Hp) as (args & -> & _ & _ & _ & _ & Hkw).
    exists args. split; [reflexivity|]. rewrite Hkw, Hname.
    case_bool_decide; reflexivity.
Qed.

(** ** Search *)

(** [_search_tql], run to its end. *)
Lemma search_tql_run self q eo rs w :
  _search_tql B self q eo rs w =
  let r := vs_search B (calls w) (vectorstore self) (TqlSearch q eo) (store w) in
  (match r.1 with
   | inl e => Raise (EngineError e)
   | inr res =>
       if rs then Raise tql_scores_error
       else Return (Docs (zip_with Build_Document (r_text res) (r_metadata res)))
   end, searched w (vectorstore self) (TqlSearch q eo) r.2).
Proof.
  unfold _search_tql, searched. unfold_monad.
  destruct (vs_search _ _ _ _ _) as [[e|res] st]; cbn; [reflexivity|].
  by destruct rs.
Qed.

Lemma search_vector_run self query embedding ef k dm filter rs eo tql w :
  truthy_opt_str tql = false ->
  _search B self query embedding ef k dm filter rs eo tql w =
  let f :=
    match ef with
    | Some (AsEmbeddings e) => Some (embed_query e)
    | Some (AsCallable f) => Some f
    | None => embed_query <$> _embedding_function self
    end in
  match embedding, f with
  | Some _, _ => vector_search_run B self embedding k dm filter rs eo w
  | None, None => (Raise missing_embedding_source_error, w)
  | None, Some f =>
      vector_search_run B self
        (match query with
         | Some q => if truthy_str q then Some (f q) else None
         | None => None
         end) k dm filter rs eo w
  end.
Proof.
  intros Htql. unfold _search. rewrite Htql.
  assert (Hrun : forall emb,
    bind (call_search B (vectorstore self)
            (VectorSearch (normalize_embedding emb) k dm filter eo
               ["embedding"; "metadata"; "text"]))
      (fun result =>
         bind get_store (fun st =>
           let '(metadatas, st) :=
             merge_embeddings 0 (r_embedding result) (r_metadata result) st in
           bind (put_store st) (fun _ =>
             if rs
             then ret (DocsWithScores
                         (zip (zip_with Build_Document (r_text result) metadatas)
                            (r_score result)))
             else ret (Docs (zip_with Build_Document (r_text result) metadatas)))))
      w
    = vector_search_run B self emb k dm filter rs eo w).
  { intros emb. unfold vector_search_run, searched. unfold_monad.
    destruct (vs_search _ _ _ _ _) as [[e|res] st]; cbn; [reflexivity|].
    destruct (merge_embeddings _ _ _ _) as [ms st']; cbn.
    by destruct rs. }
  destruct embedding as [e|].
  - exact (Hrun (Some e)).
  - destruct ef as [[e|f]|]; try exact (Hrun _).
    destruct (_embedding_function self); [exact (Hrun _) | reflexivity].
Qed.

Lemma vector_search_run_outcome self emb k dm filter rs eo w :
  (exists e, (vector_search_run B self emb k dm filter rs eo w).1
             = Raise (EngineError e))
  \/ (exists out, (vector_search_run B self emb k dm filter rs eo w).1
                  = Return out).
Proof.
  unfold vector_search_run. destruct (vs_search _ _ _ _ _) as [[e|res] st]; cbn.
  - left. by eexists.
  - right. by eexists.
Qed.

Lemma vector_search_run_not_argument_error self emb k dm filter rs eo w :
  (vector_search_run B self emb k dm filter rs eo w).1
  <> Raise mutually_exclusive_error
  /\ (vector_search_run B self emb k dm filter rs eo w).1
     <> Raise missing_embedding_source_error.
Proof.
  destruct (vector_search_run_outcome self emb k dm filter rs eo w)
    as [[x ->]|[x ->]]; split; discriminate.
Qed.



(** C4: a raw-query search whose engine call returns rows fails with the
    unsupported-operation error when scores are requested, and otherwise
    returns one Document per row, built from the row's text and metadata. *)
Theorem raw_query_search self q eo rs w res st :
  vs_search B (calls w) (vectorstore self) (TqlSearch q eo) (store w)
  = (inr res, st) ->
  _search_tql B self q eo rs w
  = (if rs then Raise tql_scores_error
     else Return (Docs (zip_with Build_Document (r_text res) (r_metadata res))),
     searched w (vectorstore self) (TqlSearch q eo) st)
  /\ (truthy_opt_str q = true ->
      forall query embedding ef k dm filter,
        _search B self query embedding ef k dm filter rs eo q w
        = _search_tql B self q eo rs w).
Proof.
  intros Hres. split.
  - rewrite search_tql_run, Hres. reflexivity.
  - intros Hq *. unfold _search. by rewrite Hq.
Qed.

(** C8, as the code has it: with scores requested the raw query is run
    against the engine first, exactly once; the unsupported-operation error
    is raised after the engine has answered, and an engine failure is passed
    on instead. *)
Theorem tql_scores_error_after_search self q eo w :
  calls (_search_tql B self q eo true w).2
  = calls w ++ [CSearch (vectorstore self) (TqlSearch q eo)]
  /\ count_searches (_search_tql B self q eo true w).2
     = S (count_searches w)
  /\ (_search_tql B self q eo true w).1
     = match (vs_search B (calls w) (vectorstore self) (TqlSearch q eo)
                (store w)).1 with
       | inl e => Raise (EngineError e)
       | inr _ => Raise tql_scores_error
       end.
Proof.
  rewrite search_tql_run. cbn. repeat split.
  unfold count_searches. cbn. rewrite List.filter_app, length_app. cbn. lia.
Qed.

(** C10: with a provider configured, [similarity_search] on the empty query
    text and no embedding passes the argument check, does not ask the
    provider, and calls the engine's search with the embedding absent; it
    ends in neither of the two argument errors. *)
Theorem similarity_search_empty_query self p k kw w :
  _embedding_function self = Some p ->
  truthy_opt_str (kw_tql_query kw) = false ->
  calls (similarity_search B self (Some "") None k kw w).2
  = calls w ++ [CSearch (vectorstore self)
                  (VectorSearch None k (default "L2" (kw_distance_metric kw))
                     (kw_filter kw) (kw_exec_option kw)
                     ["embedding"; "metadata"; "text"])]
  /\ (similarity_search B self (Some "") None k kw w).1
     <> Raise mutually_exclusive_error
  /\ (similarity_search B self (Some "") None k kw w).1
     <> Raise missing_embedding_source_error.
Proof.
  intros Hp Htql. unfold similarity_search. cbn [is_none andb orb negb].
  rewrite search_vector_run by done. rewrite Hp. cbn zeta.
  assert (Hf : exists f,
    match kw_embedding_function kw with
    | Some (AsEmbeddings e) => Some (embed_query e)
    | Some (AsCallable f) => Some f
    | None => embed_query <$> Some p
    end = Some f).
  { destruct (kw_embedding_function kw) as [[e|f]|]; by eexists. }
  destruct Hf as [f ->]. cbn [truthy_str].
  split; [|apply vector_search_run_not_argument_error].
  unfold vector_search_run. cbn [normalize_embedding].
  by destruct ((vs_search _ _ _ _ _).1).
Qed.

(** ** Merging the embeddings into the metadata *)

Lemma zip_with_longer_l {X Y Z'} (f : X -> Y -> Z') (l l' : list X)
    (k : list Y) :
  (length k <= length l)%nat -> zip_with f (l ++ l') k = zip_with f l k.
Proof.
  revert k. induction l as [|x l IH]; intros [|y k] Hlen; cbn in *;
    try reflexivity; try lia.
  - by destruct l'.
  - f_equal. apply IH. lia.
Qed.

Lemma zip_with_longer_r {X Y Z'} (f : X -> Y -> Z') (l : list X)
    (k k' : list Y) :
  (length l <= length k)%nat -> zip_with f l (k ++ k') = zip_with f l k.
Proof.
  revert k. induction l as [|x l IH]; intros [|y k] Hlen; cbn in *;
    try reflexivity; try lia.
  f_equal. apply IH. lia.
Qed.

(** On aligned columns the loop visits the rows from index [i] on, once
    each, in order, and appends the references it visited. *)
Lemma merge_embeddings_aligned (embeddings : list ndarray) :
  forall (i : nat) (metadatas : list loc) st,
    (i + length embeddings <= length metadatas)%nat ->
    merge_embeddings i embeddings metadatas st
    = (metadatas ++ take (length embeddings) (drop i metadatas),
       foldl (fun st row => set_embedding st row.1 row.2) st
         (zip (drop i metadatas) embeddings)).
Proof.
  induction embeddings as [|embed embeddings IH]; intros i metadatas st Hlen.
  - cbn. rewrite app_nil_r, zip_with_nil_r.
    by destruct (metadatas !! i).
  - cbn in Hlen. cbn [merge_embeddings].
    destruct (lookup_lt_is_Some_2 metadatas i) as [meta Hmeta]; [lia|].
    rewrite Hmeta, IH by (rewrite length_app; cbn; lia).
    rewrite (drop_S _ _ _ Hmeta). cbn.
    rewrite drop_app_le by lia.
    rewrite take_app_le by (rewrite length_drop; lia).
    rewrite zip_with_longer_l by (rewrite length_drop; lia).
    by rewrite <- app_assoc.
Qed.

Lemma foldl_set_embedding_other (metadatas : list loc)
    (embeddings : list ndarray) st (l : loc) :
  l ∉ metadatas ->
  foldl (fun st row => set_embedding st row.1 row.2) st
    (zip metadatas embeddings) !! l = st !! l.
Proof.
  revert embeddings st.
  induction metadatas as [|m metadatas IH]; intros [|e embeddings] st Hl;
    cbn; try reflexivity.
  rewrite IH by set_solver. unfold set_embedding.
  apply lookup_alter_ne. set_solver.
Qed.




(** ** from_texts *)

(** The name [embedding] is bound neither in [from_texts] nor at module
    level. *)
Lemma embedding_unbound (ef : option Embeddings) :
  from_texts_scope ef !! "embedding" = None.
Proof.
  unfold from_texts_scope. rewrite lookup_insert_ne by discriminate.
  apply not_elem_of_list_to_map_1. cbn.
  rewrite !not_elem_of_cons. repeat split; try discriminate.
  apply not_elem_of_nil.
Qed.

(** Construction asks the engine for no insertion. *)
Lemma init_no_add path ef kw w :
  count_adds (__init__ B path ef kw w).2 = count_adds w.
Proof.
  unfold __init__.
  destruct (negb (_DEEPLAKE_INSTALLED B)); [reflexivity|].
  destruct (Z.eqb _ _); [reflexivity|].
  unfold_monad. destruct (vs_open B _ _); cbn;
    unfold count_adds, log; cbn;
    rewrite ?List.filter_app, ?length_app; cbn; lia.
Qed.

(** C1, on the code: [from_texts] never returns an instance and never
    reaches [add_texts].  When no legacy [embedding] argument is given and
    construction succeeds, evaluating the arguments of the [add_texts] call
    raises NameError for the unbound name [embedding]; the engine has then
    been asked to open the dataset but for no insertion. *)
Theorem from_texts_raises texts ef metadatas ids path kw w :
  from_texts B texts ef metadatas ids path kw w
  = (if truthy_get (i_kwargs kw) "embedding"
     then (Raise deprecated_embedding_error, w)
     else match __init__ B path ef kw w with
          | (Return _, w1) => (Raise (NameError "embedding"), w1)
          | (Raise e, w1) => (Raise e, w1)
          end)
  /\ (exists e, (from_texts B texts ef metadatas ids path kw w).1 = Raise e)
  /\ count_adds (from_texts B texts ef metadatas ids path kw w).2
     = count_adds w.
Proof.
  assert (Hrun : from_texts B texts ef metadatas ids path kw w
    = (if truthy_get (i_kwargs kw) "embedding"
       then (Raise deprecated_embedding_error, w)
       else match __init__ B path ef kw w with
            | (Return _, w1) => (Raise (NameError "embedding"), w1)
            | (Raise e, w1) => (Raise e, w1)
            end)).
  { unfold from_texts. destruct (truthy_get _ _); [reflexivity|].
    unfold bind at 1. destruct (__init__ B path ef kw w) as [[self|e] w1];
      [|reflexivity].
    unfold bind at 1, load_name. by rewrite embedding_unbound. }
  split; [exact Hrun|]. rewrite Hrun.
  pose proof (init_no_add path ef kw w) as Hinit.
  destruct (truthy_get _ _); cbn; [by eauto|].
  destruct (__init__ B path ef kw w) as [[self|e] w1]; cbn in *; eauto.
Qed.

End Properties.

(** * The adapter on concrete inputs *)

Import Demo.


(** Two texts, once without metadatas and once with two empty mappings. *)
Lemma add_texts_metadatas_omitted_witness :
  add_texts (backend fields) (adapter "id") ["a"; "bc"] None
    (Some ["7"; "8"]) ∅ fresh
  = add_texts (backend fields) (adapter "id") ["a"; "bc"] (Some [∅; ∅])
      (Some ["7"; "8"]) ∅ fresh.
Proof.
  apply (add_texts_metadatas_omitted (backend fields) (adapter "id")
           ["a"; "bc"] [∅; ∅] (Some ["7"; "8"]) ∅ fresh);
    [reflexivity | repeat constructor].
Defined.

(** Construction on a dataset whose id field is called "ids", and the
    insertions that follow. *)
Lemma id_field_name_resolved_witness :
  let self := adapter "ids" in
  (exists args,
     [COpen {| o_path := DEFAULT_DATASET_PATH;
               o_embedding_function := Some provider;
               o_read_only := false;
               o_token := None;
               o_exec_option := "python";
               o_verbose := true;
               o_kwargs := ∅ |};
      CTensors 0%nat]
     = calls fresh ++ [COpen args; CTensors (vectorstore self)]
     /\ o_path args = DEFAULT_DATASET_PATH
     /\ _id_tensor_name self
        = if bool_decide ("ids" ∈ ["text"; "metadata"; "embedding"; "ids"])
          then "ids" else "id")
  /\ forall texts metadatas id ids kwargs w,
       exists args,
         calls (add_texts (backend ["text"; "metadata"; "embedding"; "ids"])
                  self texts metadatas (Some (id :: ids)) kwargs w).2
         = calls w ++ [CAdd (vectorstore self) args]
         /\ a_kwargs args = {[_id_tensor_name self := KwStrings (id :: ids)]}.
Proof.
  apply (id_field_name_resolved
           (backend ["text"; "metadata"; "embedding"; "ids"])
           DEFAULT_DATASET_PATH provider init_defaults fresh (adapter "ids")
           {| calls := [COpen {| o_path := DEFAULT_DATASET_PATH;
                                 o_embedding_function := Some provider;
                                 o_read_only := false;
                                 o_token := None;
                                 o_exec_option := "python";
                                 o_verbose := true;
                                 o_kwargs := ∅ |};
                        CTensors 0%nat];
              store := ∅ |}).
  reflexivity.
Defined.

(** A raw query with scores requested. *)
Lemma raw_query_search_witness :
  _search_tql (backend fields) (adapter "id") (Some "SELECT * WHERE id == 1")
    None true fresh
  = (Raise tql_scores_error,
     searched fresh (vectorstore (adapter "id"))
       (TqlSearch (Some "SELECT * WHERE id == 1") None) objects)
  /\ (truthy_opt_str (Some "SELECT * WHERE id == 1") = true ->
      forall query embedding ef k dm filter,
        _search (backend fields) (adapter "id") query embedding ef k dm
          filter true None (Some "SELECT * WHERE id == 1") fresh
        = _search_tql (backend fields) (adapter "id")
            (Some "SELECT * WHERE id == 1") None true fresh).
Proof.
  apply (raw_query_search (backend fields) (adapter "id")
           (Some "SELECT * WHERE id == 1") None true fresh (rows 2) objects).
  reflexivity.
Defined.

(** The raw-query call that ends in the scores error has run the query
    against the engine before failing. *)
Lemma tql_scores_error_after_search_counterexample :
  let r := _search_tql (backend fields) (adapter "id")
             (Some "SELECT * WHERE id == 1") None true fresh in
  r.1 = Raise tql_scores_error
  /\ calls r.2 <> calls fresh
  /\ count_searches r.2 = 1%nat
  /\ count_searches fresh = 0%nat.
Proof. cbn. repeat split. discriminate. Qed.

(** The empty query text on an adapter with a provider. *)
Lemma similarity_search_empty_query_witness :
  calls (similarity_search (backend fields) (adapter "id") (Some "") None 4
           no_kwargs fresh).2
  = calls fresh ++ [CSearch (vectorstore (adapter "id"))
                      (VectorSearch None 4 "L2" None None
                         ["embedding"; "metadata"; "text"])]
  /\ (similarity_search (backend fields) (adapter "id") (Some "") None 4
        no_kwargs fresh).1 <> Raise mutually_exclusive_error
  /\ (similarity_search (backend fields) (adapter "id") (Some "") None 4
        no_kwargs fresh).1 <> Raise missing_embedding_source_error.
Proof.
  apply (similarity_search_empty_query (backend fields) (adapter "id")
           provider 4 no_kwargs fresh); reflexivity.
Defined.


(** ** Further runs *)

(** [from_texts] on one text with a provider and the default options: the
    dataset is opened and inspected, then the NameError is raised. *)
Example from_texts_on_demo :
  from_texts (backend fields) ["hello"] (Some provider) None None
    DEFAULT_DATASET_PATH init_defaults fresh
  = (Raise (NameError "embedding"),
     {| calls := [COpen {| o_path := DEFAULT_DATASET_PATH;
                           o_embedding_function := Some provider;
                           o_read_only := false;
                           o_token := None;
                           o_exec_option := "python";
                           o_verbose := true;
                           o_kwargs := ∅ |};
                  CTensors 0%nat];
        store := ∅ |}).
Proof. vm_compute. reflexivity. Qed.

(** The adapter does not cut the engine's answer down to [k]: an engine
    that answers with two rows for k = 1 yields two Documents. *)
Example similarity_search_keeps_every_row :
  exists docs w',
    similarity_search greedy_backend (adapter "id") None (Some query_vector) 1
      without_scores fresh = (Return (Docs docs), w')
    /\ length docs = 2%nat.
Proof. do 2 eexists. split; [cbv; reflexivity | reflexivity]. Qed.

(** When [return_score] is not passed, [_search] takes its default and the
    Documents come paired with their scores. *)
Example similarity_search_default_scores :
  exists pairs w',
    similarity_search (backend fields) (adapter "id") None (Some query_vector)
      4 no_kwargs fresh = (Return (DocsWithScores pairs), w')
    /\ pairs.*2 = [10; 20].
Proof. do 2 eexists. split; [cbv; reflexivity | reflexivity]. Qed.

(** An empty list of ids is treated as no ids. *)
Example add_texts_empty_ids :
  exists args,
    calls (add_texts (backend fields) (adapter "id") ["a"] None (Some []) ∅
             fresh).2 = [CAdd 0%nat args]
    /\ a_kwargs args = ∅.
Proof. eexists. split; [cbv; reflexivity | reflexivity]. Qed.

(** A query text alone, on an adapter without provider, passes the check of
    [similarity_search] and fails in [_search] for want of an embedding
    source, before the engine is reached. *)
Example similarity_search_without_provider :
  similarity_search (backend fields)
    {| ingestion_batch_size := 1000; num_workers := 0; verbose := true;
       dataset_path := DEFAULT_DATASET_PATH; vectorstore := 0%nat;
       _embedding_function := None; _id_tensor_name := "id" |}
    (Some "hello") None 4 no_kwargs fresh
  = (Raise missing_embedding_source_error, fresh).
Proof. reflexivity. Qed.

(** * Further properties of the adapter *)

Section Construction_outcomes.
Context `{NumPy} (B : Backend).

Implicit Types (self : DeepLake) (w : world).

(** The arguments [__init__] opens the dataset with. *)
Lemma init_run path ef kw w :
  __init__ B path ef kw w =
  let args := {| o_path := path;
                 o_embedding_function := ef;
                 o_read_only := i_read_only kw;
                 o_token := i_token kw;
                 o_exec_option := i_exec_option kw;
                 o_verbose := i_verbose kw;
                 o_kwargs := i_kwargs kw |} in
  if negb (_DEEPLAKE_INSTALLED B) then (Raise not_installed_error, w)
  else if Z.eqb (version_compare B (deeplake_version B) "3.6.2") (-1)
  then (Raise (version_error (deeplake_version B)), w)
  else match vs_open B (calls w) args with
       | Some e => (Raise (EngineError e), log (COpen args) w)
       | None =>
           (Return {| ingestion_batch_size := i_ingestion_batch_size kw;
                      num_workers := i_num_workers kw;
                      verbose := i_verbose kw;
                      dataset_path := path;
                      vectorstore := length (calls w);
                      _embedding_function := ef;
                      _id_tensor_name :=
                        if bool_decide
                             ("ids" ∈ vs_tensors B (calls w ++ [COpen args])
                                        (length (calls w)))
                        then "ids" else "id" |},
            log (CTensors (length (calls w))) (log (COpen args) w))
       end.
Proof.
  unfold __init__. cbn zeta.
  destruct (negb (_DEEPLAKE_INSTALLED B)); [reflexivity|].
  destruct (Z.eqb _ _); [reflexivity|].
  unfold bind, call_open, call_tensors, ret.
  by destruct (vs_open B _ _).
Qed.

Lemma version_error_not_missing_package (v : string) :
  version_error v <> not_installed_error.
Proof. unfold version_error, not_installed_error. cbn. discriminate. Qed.

(** X1: construction fails with the missing-package error exactly when the
    deeplake imports failed, and with the version error exactly when they
    succeeded and [version_compare] against "3.6.2" answers -1; in both
    cases the engine has not been called. *)
Theorem init_configuration_errors path ef kw w :
  ((__init__ B path ef kw w).1 = Raise not_installed_error
   <-> _DEEPLAKE_INSTALLED B = false)
  /\ ((__init__ B path ef kw w).1 = Raise (version_error (deeplake_version B))
      <-> _DEEPLAKE_INSTALLED B = true
          /\ version_compare B (deeplake_version B) "3.6.2" = -1)
  /\ (forall msg, (__init__ B path ef kw w).1 = Raise (ValueError msg) ->
      (__init__ B path ef kw w).2 = w).
Proof.
  rewrite init_run. cbn zeta.
  pose proof (version_error_not_missing_package (deeplake_version B)) as Hne.
  destruct (_DEEPLAKE_INSTALLED B); cbn [negb].
  - destruct (Z.eqb_spec (version_compare B (deeplake_version B) "3.6.2") (-1))
      as [Hcmp|Hcmp]; cbn.
    + split; [split; [intros [= Hv]; by rewrite Hv in Hne | done]|].
      split; [by split | done].
    + destruct (vs_open B _ _); cbn.
      all: split; [split; [intros [=] | done]|].
      all: split; [split; [intros [=] | by intros [_ ?]] | by intros msg [=]].
  - split; [by split|].
    split; [split; [intros [= Hv]; by rewrite Hv in Hne | by intros [? _]]|].
    done.
Qed.

(** X2: with the package importable and the version accepted, construction
    calls the engine's constructor once with the given path, provider and
    options.  If that call fails, the failure is passed on and [tensors()]
    is not asked; otherwise the instance keeps the path and the provider and
    exactly two engine calls have been made. *)
Theorem init_engine_outcome path ef kw w :
  _DEEPLAKE_INSTALLED B = true ->
  version_compare B (deeplake_version B) "3.6.2" <> -1 ->
  exists args,
    o_path args = path /\ o_embedding_function args = ef
    /\ o_kwargs args = i_kwargs kw
    /\ match vs_open B (calls w) args with
       | Some e =>
           __init__ B path ef kw w
           = (Raise (EngineError e), log (COpen args) w)
       | None =>
           exists self,
             (__init__ B path ef kw w).1 = Return self
             /\ calls (__init__ B path ef kw w).2
                = calls w ++ [COpen args; CTensors (vectorstore self)]
             /\ store (__init__ B path ef kw w).2 = store w
             /\ dataset_path self = path
             /\ _embedding_function self = ef
       end.
Proof.
  intros Hinst Hcmp. rewrite init_run. cbn zeta. rewrite Hinst. cbn [negb].
  destruct (Z.eqb_spec (version_compare B (deeplake_version B) "3.6.2") (-1));
    [done|].
  exists {| o_path := path;
            o_embedding_function := ef;
            o_read_only := i_read_only kw;
            o_token := i_token kw;
            o_exec_option := i_exec_option kw;
            o_verbose := i_verbose kw;
            o_kwargs := i_kwargs kw |}.
  cbn [o_path o_embedding_function o_kwargs]. repeat split.
  destruct (vs_open B _ _); [reflexivity|].
  eexists. cbn. rewrite <- app_assoc. repeat split.
Qed.

End Construction_outcomes.

Section Search_outcomes.
Context `{NumPy} (B : Backend).

Implicit Types (self : DeepLake) (w : world).

(** ** What the merge loop does to the store, on any columns *)

Lemma set_embedding_keys st (meta l : loc) (embed : ndarray) (key : string) :
  key <> "embedding" ->
  (set_embedding st meta embed !! l) ≫= (fun d => d !! key)
  = (st !! l) ≫= (fun d => d !! key).
Proof.
  intros Hkey. unfold set_embedding. destruct (decide (meta = l)) as [->|Hne].
  - rewrite lookup_alter_eq. destruct (st !! l) as [d|]; cbn; [|done].
    by rewrite lookup_insert_ne.
  - by rewrite lookup_alter_ne.
Qed.

Lemma merge_embeddings_keys (embeddings : list ndarray) :
  forall (i : nat) (metadatas : list loc) st (l : loc) (key : string),
    key <> "embedding" ->
    ((merge_embeddings i embeddings metadatas st).2 !! l)
      ≫= (fun d => d !! key)
    = (st !! l) ≫= (fun d => d !! key).
Proof.
  induction embeddings as [|embed embeddings IH];
    intros i metadatas st l key Hkey; cbn.
  - by destruct (metadatas !! i).
  - destruct (metadatas !! i) as [meta|]; [|done].
    rewrite IH by done. by apply set_embedding_keys.
Qed.

Lemma merge_embeddings_other (embeddings : list ndarray) :
  forall (i : nat) (metadatas : list loc) st (l : loc),
    l ∉ metadatas ->
    (merge_embeddings i embeddings metadatas st).2 !! l = st !! l.
Proof.
  induction embeddings as [|embed embeddings IH];
    intros i metadatas st l Hl; cbn.
  - by destruct (metadatas !! i).
  - destruct (metadatas !! i) as [meta|] eqn:Hmeta; [|done].
    apply list_elem_of_lookup_2 in Hmeta.
    assert (Hne : meta <> l) by (by intros ->).
    rewrite IH.
    + unfold set_embedding. by apply lookup_alter_ne.
    + rewrite not_elem_of_app, list_elem_of_singleton. by split.
Qed.

Lemma merge_embeddings_dom (embeddings : list ndarray) :
  forall (i : nat) (metadatas : list loc) st,
    dom (merge_embeddings i embeddings metadatas st).2 = dom st.
Proof.
  induction embeddings as [|embed embeddings IH]; intros i metadatas st; cbn.
  - by destruct (metadatas !! i).
  - destruct (metadatas !! i) as [meta|]; [|done].
    rewrite IH. unfold set_embedding. apply dom_alter_L.
Qed.

(** Once the list is not empty the loop never runs out of metadata: it runs
    once per embedding and appends one reference each time. *)
Lemma merge_embeddings_grows (embeddings : list ndarray) :
  forall (i : nat) (metadatas : list loc) st,
    (i < length metadatas)%nat ->
    exists appended,
      (merge_embeddings i embeddings metadatas st).1 = metadatas ++ appended
      /\ length appended = length embeddings.
Proof.
  induction embeddings as [|embed embeddings IH]; intros i metadatas st Hi.
  - exists []. cbn. rewrite app_nil_r. by destruct (metadatas !! i).
  - destruct (lookup_lt_is_Some_2 metadatas i Hi) as [meta Hmeta].
    cbn. rewrite Hmeta.
    destruct (IH (S i) (metadatas ++ [meta]) (set_embedding st meta embed))
      as (appended & -> & Hlen); [rewrite length_app; cbn; lia|].
    exists (meta :: appended). rewrite <- app_assoc. split; [done|].
    cbn. by rewrite Hlen.
Qed.

(** Where rows share a dict object, the object ends with the embedding of
    the last row that refers to it. *)
Lemma foldl_set_embedding_last (metadatas : list loc) :
  forall (embeddings : list ndarray) st (j : nat) (l : loc) (e : ndarray),
    metadatas !! j = Some l -> embeddings !! j = Some e ->
    (forall j', (j < j')%nat -> metadatas !! j' <> Some l) ->
    foldl (fun st row => set_embedding st row.1 row.2) st
      (zip metadatas embeddings) !! l
    = insert "embedding" (VArray e) <$> st !! l.
Proof.
  induction metadatas as [|m metadatas IH];
    intros embeddings st j l e Hl He Hlast; [done|].
  destruct embeddings as [|e0 embeddings]; [done|].
  destruct j as [|j]; cbn in *.
  - injection Hl as ->. injection He as ->.
    rewrite foldl_set_embedding_other.
    + unfold set_embedding. by rewrite lookup_alter_eq.
    + intros Hin. apply list_elem_of_lookup_1 in Hin as [j' Hj'].
      apply (Hlast (S j')); [lia | done].
  - rewrite (IH embeddings _ j l e); [|done|done|].
    + unfold set_embedding. destruct (decide (m = l)) as [->|Hne].
      * rewrite lookup_alter_eq. destruct (st !! l) as [d|]; cbn; [|done].
        by rewrite insert_insert_eq.
      * by rewrite lookup_alter_ne.
    + intros j' Hj'. apply (Hlast (S j')). lia.
Qed.

(** ** The search entry points *)

Lemma similarity_search_by_embedding self e k kw w :
  truthy_opt_str (kw_tql_query kw) = false ->
  similarity_search B self None (Some e) k kw w
  = vector_search_run B self (Some e) k (default "L2" (kw_distance_metric kw))
      (kw_filter kw) (default true (kw_return_score kw)) (kw_exec_option kw) w.
Proof.
  intros Htql. unfold similarity_search. cbn [is_none andb orb negb].
  by rewrite search_vector_run.
Qed.

(** X3: [_search] ends in the missing-embedding-source error exactly when
    there is no raw query, no embedding, no embedding function argument and
    no provider on the adapter, whatever the query text is; the engine is
    then not called. *)
Theorem search_missing_embedding_source self query embedding ef k dm filter rs
    eo tql w :
  ((_search B self query embedding ef k dm filter rs eo tql w).1
     = Raise missing_embedding_source_error
   <-> truthy_opt_str tql = false /\ embedding = None /\ ef = None
       /\ _embedding_function self = None)
  /\ ((_search B self query embedding ef k dm filter rs eo tql w).1
        = Raise missing_embedding_source_error ->
      (_search B self query embedding ef k dm filter rs eo tql w).2 = w).
Proof.
  destruct (truthy_opt_str tql) eqn:Htql.
  - assert (Hne : (_search B self query embedding ef k dm filter rs eo tql w).1
                  <> Raise missing_embedding_source_error).
    { unfold _search. rewrite Htql, search_tql_run. cbn.
      destruct (vs_search _ _ _ _ _) as [[e|res] st]; cbn; [discriminate|].
      destruct rs; discriminate. }
    split; [split; [done | by intros [? _]] | done].
  - rewrite search_vector_run by done. cbn zeta.
    assert (Hvec : forall x,
      (vector_search_run B self x k dm filter rs eo w).1
      <> Raise missing_embedding_source_error)
      by (intros x; apply vector_search_run_not_argument_error).
    destruct embedding as [e|].
    { split; [split; [intros Habs; by apply Hvec in Habs
                     | by intros (_ & ? & _)]
             | intros Habs; by apply Hvec in Habs]. }
    destruct ef as [[e|f]|]; cbn.
    1,2: split; [split; [intros Habs; by apply Hvec in Habs
                        | by intros (_ & _ & ? & _)]
                | intros Habs; by apply Hvec in Habs].
    destruct (_embedding_function self) as [p|]; cbn.
    + split; [split; [intros Habs; by apply Hvec in Habs
                     | by intros (_ & _ & _ & ?)]
             | intros Habs; by apply Hvec in Habs].
    + by repeat split.
Qed.

(** X4: when an embedding is given (and no raw query), the query text, the
    embedding function argument and the adapter's provider play no part:
    two calls that differ only in them make the same engine call and have
    the same outcome. *)
Theorem search_by_embedding_ignores_text self self' query query' e ef ef' k dm
    filter rs eo tql w :
  vectorstore self = vectorstore self' ->
  truthy_opt_str tql = false ->
  _search B self query (Some e) ef k dm filter rs eo tql w
  = _search B self' query' (Some e) ef' k dm filter rs eo tql w.
Proof.
  intros Hvs Htql. rewrite !search_vector_run by done. cbn zeta.
  unfold vector_search_run. by rewrite Hvs.
Qed.

(** X5: [similarity_search] does not pass [return_score] on its own, and
    the default of [_search] is to return scores: called by embedding
    without that keyword, it returns the Documents of the
    [return_score=False] call, each paired with the engine's score of its
    row, and leaves the same world. *)
Theorem similarity_search_default_pairs self e k kw w res st :
  truthy_opt_str (kw_tql_query kw) = false ->
  kw_return_score kw = None ->
  vs_search B (calls w) (vectorstore self) (by_embedding_args e k kw) (store w)
  = (inr res, st) ->
  exists docs w',
    similarity_search B self None (Some e) k (with_return_score false kw) w
    = (Return (Docs docs), w')
    /\ similarity_search B self None (Some e) k kw w
       = (Return (DocsWithScores (zip docs (r_score res))), w').
Proof.
  intros Htql Hrs Hres.
  rewrite !similarity_search_by_embedding by done.
  unfold vector_search_run. cbn [with_return_score kw_distance_metric
    kw_filter kw_exec_option kw_return_score default].
  unfold by_embedding_args in Hres. rewrite Hres, Hrs. cbn.
  by do 2 eexists.
Qed.

(** X6: a raw query sent through [similarity_search] without
    [return_score=False] always ends in the scores error once the engine has
    answered, because the default of [_search] asks for scores; with
    [return_score=False] the same call returns the Documents. *)
Theorem similarity_search_raw_query_default self q k kw w res st :
  truthy_opt_str (kw_tql_query kw) = true ->
  kw_return_score kw = None ->
  vs_search B (calls w) (vectorstore self)
    (TqlSearch (kw_tql_query kw) (kw_exec_option kw)) (store w)
  = (inr res, st) ->
  similarity_search B self (Some q) None k kw w
  = (Raise tql_scores_error,
     searched w (vectorstore self)
       (TqlSearch (kw_tql_query kw) (kw_exec_option kw)) st)
  /\ similarity_search B self (Some q) None k (with_return_score false kw) w
     = (Return (Docs (zip_with Build_Document (r_text res) (r_metadata res))),
        searched w (vectorstore self)
          (TqlSearch (kw_tql_query kw) (kw_exec_option kw)) st).
Proof.
  intros Htql Hrs Hres. unfold similarity_search.
  cbn [is_none andb orb negb with_return_score kw_embedding_function
       kw_distance_metric kw_filter kw_return_score kw_exec_option
       kw_tql_query default].
  unfold _search. rewrite Htql, !search_tql_run, Hres, Hrs. by cbn.
Qed.

(** X7: a search by embedding leaves the store the engine handed over
    almost as it was: no dict object appears or disappears, the objects that
    are not in the metadata column are untouched, and in every object all
    keys other than "embedding" keep their values. *)
Theorem similarity_search_store_frame self e k kw w res st :
  truthy_opt_str (kw_tql_query kw) = false ->
  vs_search B (calls w) (vectorstore self) (by_embedding_args e k kw) (store w)
  = (inr res, st) ->
  dom (store (similarity_search B self None (Some e) k kw w).2) = dom st
  /\ (forall l : loc, l ∉ r_metadata res ->
      store (similarity_search B self None (Some e) k kw w).2 !! l = st !! l)
  /\ (forall (l : loc) (key : string), key <> "embedding" ->
      (store (similarity_search B self None (Some e) k kw w).2 !! l)
        ≫= (fun d => d !! key)
      = (st !! l) ≫= (fun d => d !! key)).
Proof.
  intros Htql Hres. rewrite similarity_search_by_embedding by done.
  unfold vector_search_run. unfold by_embedding_args in Hres.
  rewrite Hres. cbn. split; [apply merge_embeddings_dom|].
  split; intros.
  - by apply merge_embeddings_other.
  - by apply merge_embeddings_keys.
Qed.

(** X8: on aligned columns, whether or not rows share dict objects, a
    search by embedding returns one Document per row, holding the row's
    text and metadata reference; a dict object ends with the embedding of
    the last row that refers to it, so rows sharing an object all show that
    last embedding. *)
Theorem similarity_search_shared_metadata self e k kw w res st :
  truthy_opt_str (kw_tql_query kw) = false ->
  vs_search B (calls w) (vectorstore self) (by_embedding_args e k kw) (store w)
  = (inr res, st) ->
  length (r_text res) = length (r_metadata res) ->
  length (r_embedding res) = length (r_metadata res) ->
  exists w',
    similarity_search B self None (Some e) k (with_return_score false kw) w
    = (Return (Docs (zip_with Build_Document (r_text res) (r_metadata res))),
       w')
    /\ forall (j : nat) (l : loc) (embed : ndarray),
         r_metadata res !! j = Some l ->
         r_embedding res !! j = Some embed ->
         (forall j', (j < j')%nat -> r_metadata res !! j' <> Some l) ->
         store w' !! l = insert "embedding" (VArray embed) <$> st !! l.
Proof.
  intros Htql Hres Htext Hemb.
  rewrite similarity_search_by_embedding by done.
  unfold vector_search_run. unfold by_embedding_args in Hres.
  cbn [with_return_score kw_distance_metric kw_filter kw_exec_option
       kw_return_score default].
  rewrite Hres. cbn.
  rewrite merge_embeddings_aligned by (rewrite Hemb; cbn; lia).
  cbn. rewrite drop_0, zip_with_longer_r by lia.
  eexists. split; [reflexivity|]. cbn.
  intros j l embed Hl He Hlast. by apply (foldl_set_embedding_last _ _ _ j).
Qed.

(** X9: the loop lengthens the metadata list it iterates over, so the
    number of Documents is not bounded by the metadata column: a search by
    embedding returns no Document when the metadata column is empty, and
    otherwise min(texts, metadata entries + embeddings) of them, the first
    of which keep the metadata reference of their own row. *)
Theorem similarity_search_document_count self e k kw w res st :
  truthy_opt_str (kw_tql_query kw) = false ->
  vs_search B (calls w) (vectorstore self) (by_embedding_args e k kw) (store w)
  = (inr res, st) ->
  exists docs w',
    similarity_search B self None (Some e) k (with_return_score false kw) w
    = (Return (Docs docs), w')
    /\ length docs
       = (match r_metadata res with
          | [] => 0
          | _ => length (r_text res)
                 `min` (length (r_metadata res) + length (r_embedding res))
          end)%nat
    /\ forall (i : nat) (d : Document) (l : loc),
         docs !! i = Some d -> r_metadata res !! i = Some l ->
         metadata d = l.
Proof.
  intros Htql Hres.
  rewrite similarity_search_by_embedding by done.
  unfold vector_search_run. unfold by_embedding_args in Hres.
  cbn [with_return_score kw_distance_metric kw_filter kw_exec_option
       kw_return_score default].
  rewrite Hres. cbn. do 2 eexists. split; [reflexivity|].
  destruct (r_metadata res) as [|m ms] eqn:Hms.
  - destruct (r_embedding res); cbn; rewrite zip_with_nil_r;
      split; [done | by intros ? ? ? [=] | done | by intros ? ? ? [=]].
  - destruct (merge_embeddings_grows (r_embedding res) 0 (m :: ms) st)
      as (appended & Hlist & Hlen); [cbn; lia|].
    rewrite Hlist. split.
    + rewrite length_zip_with, length_app, Hlen. done.
    + intros i d l Hd Hl. rewrite lookup_zip_with in Hd.
      destruct (r_text res !! i) as [t|]; [|done].
      assert (Hi : ((m :: ms) ++ appended) !! i = Some l)
        by (rewrite lookup_app_l; [done | by eapply lookup_lt_Some]).
      rewrite Hi in Hd. cbn in Hd. by injection Hd as <-.
Qed.

Lemma vector_search_run_calls self emb k dm filter rs eo w :
  exists args,
    calls (vector_search_run B self emb k dm filter rs eo w).2
    = calls w ++ [CSearch (vectorstore self) args].
Proof.
  unfold vector_search_run. eexists.
  by destruct ((vs_search _ _ _ _ _).1).
Qed.

(** X10: whatever its arguments, [similarity_search] asks the engine for at
    most one search and for nothing else: the log grows by nothing (an
    argument error) or by a single search call on the adapter's handle. *)
Theorem similarity_search_engine_calls self query embedding k kw w :
  exists made,
    calls (similarity_search B self query embedding k kw w).2
    = calls w ++ made
    /\ (made = [] \/ exists args, made = [CSearch (vectorstore self) args]).
Proof.
  assert (Hsearch : forall q e ef dm f rs eo tql,
    exists made,
      calls (_search B self q e ef k dm f rs eo tql w).2 = calls w ++ made
      /\ (made = [] \/ exists args, made = [CSearch (vectorstore self) args])).
  { intros q e ef dm f rs eo tql.
    destruct (truthy_opt_str tql) eqn:Htql.
    - unfold _search. rewrite Htql, search_tql_run. cbn. eauto.
    - rewrite search_vector_run by done. cbn zeta.
      assert (Hvec : forall x,
        exists made,
          calls (vector_search_run B self x k dm f rs eo w).2 = calls w ++ made
          /\ (made = [] \/
              exists args, made = [CSearch (vectorstore self) args])).
      { intros x. destruct (vector_search_run_calls self x k dm f rs eo w)
          as [args Hcalls]. eauto. }
      destruct e as [e|]; [apply Hvec|].
      destruct ef as [[p|g]|]; cbn; try apply Hvec.
      destruct (_embedding_function self); cbn; [apply Hvec|].
      exists []. rewrite app_nil_r. eauto. }
  unfold similarity_search.
  destruct (_ || _); [|apply Hsearch].
  exists []. cbn. rewrite app_nil_r. eauto.
Qed.

End Search_outcomes.

Section From_texts_effects.
Context `{NumPy} (B : Backend).

(** X11: a [from_texts] call that passes the legacy-parameter check on an
    environment where construction succeeds has opened (or created) the
    dataset at the given path and asked for its field names before it fails
    with the NameError: the failed call leaves these two engine calls
    behind, and the store untouched. *)
Theorem from_texts_opens_dataset texts ef metadatas ids path kw w :
  truthy_get (i_kwargs kw) "embedding" = false ->
  _DEEPLAKE_INSTALLED B = true ->
  version_compare B (deeplake_version B) "3.6.2" <> -1 ->
  vs_open B (calls w)
    {| o_path := path;
       o_embedding_function := ef;
       o_read_only := i_read_only kw;
       o_token := i_token kw;
       o_exec_option := i_exec_option kw;
       o_verbose := i_verbose kw;
       o_kwargs := i_kwargs kw |} = None ->
  from_texts B texts ef metadatas ids path kw w
  = (Raise (NameError "embedding"),
     {| calls := calls w ++ [COpen {| o_path := path;
                                      o_embedding_function := ef;
                                      o_read_only := i_read_only kw;
                                      o_token := i_token kw;
                                      o_exec_option := i_exec_option kw;
                                      o_verbose := i_verbose kw;
                                      o_kwargs := i_kwargs kw |};
                               CTensors (length (calls w))];
        store := store w |}).
Proof.
  intros Hlegacy Hinst Hcmp Hopen. unfold from_texts. rewrite Hlegacy.
  unfold bind at 1. rewrite init_run. cbn zeta. rewrite Hinst. cbn [negb].
  destruct (Z.eqb_spec (version_compare B (deeplake_version B) "3.6.2") (-1));
    [done|].
  rewrite Hopen. unfold bind at 1, load_name. rewrite embedding_unbound.
  unfold raise, log. cbn. by rewrite <- app_assoc.
Qed.

End From_texts_effects.

Section Deletion_outcomes.
Context `{NumPy} (A : Admin).

Implicit Types (self : DeepLake) (w : admin_world).

(** X12: [delete] hands its three criteria to the engine as they are, none
    of them being required, in exactly one [vectorstore.delete] call; it
    returns True whenever that call returns, whatever success flag the
    engine answered, and never False; an engine failure is passed on. *)
Theorem delete_returns_true self ids filter delete_all w :
  (delete A self ids filter delete_all w).2
  = admin_log (CDelete (length (calls (engine_world w))) (vectorstore self)
                 {| d_ids := ids; d_filter := filter;
                    d_delete_all := delete_all |}) w
  /\ (delete A self ids filter delete_all w).1
     = match vs_delete A (calls (engine_world w)) (admin_calls w)
               (vectorstore self)
               {| d_ids := ids; d_filter := filter;
                  d_delete_all := delete_all |} with
       | inl e => Raise (EngineError e)
       | inr _ => Return true
       end
  /\ (delete A self ids filter delete_all w).1 <> Return false.
Proof.
  unfold delete, call_delete.
  destruct (vs_delete A _ _ _ _) as [e|flag]; cbn; by repeat split.
Qed.

(** X13: [delete_dataset] is one [vectorstore.delete] call with
    [delete_all=True] and neither ids nor filter; it returns nothing, passes
    an engine failure on, and never raises a ValueError, however often it is
    repeated. *)
Theorem delete_dataset_deletes_all self w :
  (delete_dataset A self w).2
  = admin_log (CDelete (length (calls (engine_world w))) (vectorstore self)
                 {| d_ids := None; d_filter := None;
                    d_delete_all := Some true |}) w
  /\ (delete_dataset A self w).2 = (delete A self None None (Some true) w).2
  /\ ((delete_dataset A self w).1 = Return tt
      <-> (delete A self None None (Some true) w).1 = Return true)
  /\ (forall msg,
        (delete_dataset A self w).1 <> Raise (ValueError msg)
        /\ (delete_dataset A self (delete_dataset A self w).2).1
           <> Raise (ValueError msg)).
Proof.
  assert (Hno : forall w' msg,
    (delete_dataset A self w').1 <> Raise (ValueError msg)).
  { intros w' msg. unfold delete_dataset, delete, call_delete.
    by destruct (vs_delete A _ _ _ _). }
  unfold delete_dataset at 1 2 3, delete, call_delete.
  destruct (vs_delete A _ _ _ _) as [e|flag]; cbn; by repeat split.
Qed.

(** X14: [force_delete_by_path] raises the missing-package error exactly
    when [import deeplake] fails, and then calls nothing; otherwise it makes
    one [deeplake.delete] call on the path with [large_ok] and [force] set.
    It never touches the adapter's world, and repeating it raises the
    missing-package error only if the first call did. *)
Theorem force_delete_by_path_outcome path w :
  ((force_delete_by_path A path w).1 = Raise not_installed_error
   <-> import_deeplake A = false)
  /\ admin_calls (force_delete_by_path A path w).2
     = admin_calls w ++ (if import_deeplake A
                         then [CForceDelete path true true] else [])
  /\ engine_world (force_delete_by_path A path w).2 = engine_world w
  /\ ((force_delete_by_path A path (force_delete_by_path A path w).2).1
        = Raise not_installed_error
      <-> (force_delete_by_path A path w).1 = Raise not_installed_error).
Proof.
  unfold force_delete_by_path. destruct (import_deeplake A); cbn.
  - repeat split; try done.
    all: destruct (deeplake_delete A _ _ _ _); try discriminate.
    all: destruct (deeplake_delete A _ _ _ _); discriminate.
  - rewrite app_nil_r. by repeat split.
Qed.

End Deletion_outcomes.

(** ** Runs of the further properties *)

Import DemoAdmin DemoShared.

(** Construction on the demo engine. *)
Lemma init_engine_outcome_witness :
  exists args,
    o_path args = DEFAULT_DATASET_PATH
    /\ o_embedding_function args = Some provider
    /\ o_kwargs args = i_kwargs init_defaults
    /\ match vs_open (backend fields) (calls fresh) args with
       | Some e =>
           __init__ (backend fields) DEFAULT_DATASET_PATH (Some provider)
             init_defaults fresh
           = (Raise (EngineError e), log (COpen args) fresh)
       | None =>
           exists self,
             (__init__ (backend fields) DEFAULT_DATASET_PATH (Some provider)
                init_defaults fresh).1 = Return self
             /\ calls (__init__ (backend fields) DEFAULT_DATASET_PATH
                         (Some provider) init_defaults fresh).2
                = calls fresh ++ [COpen args; CTensors (vectorstore self)]
             /\ store (__init__ (backend fields) DEFAULT_DATASET_PATH
                         (Some provider) init_defaults fresh).2 = store fresh
             /\ dataset_path self = DEFAULT_DATASET_PATH
             /\ _embedding_function self = Some provider
       end.
Proof.
  apply (init_engine_outcome (backend fields) DEFAULT_DATASET_PATH
           (Some provider) init_defaults fresh); [reflexivity | cbn; lia].
Defined.

(** The same embedding, once with a query text on the demo adapter and once
    with an embedding function on an adapter without provider. *)
Lemma search_by_embedding_ignores_text_witness :
  _search (backend fields) (adapter "id") (Some "alpha") (Some query_vector)
    None 4 "L2" None false None None fresh
  = _search (backend fields) bare_adapter None (Some query_vector)
      (Some (AsEmbeddings provider)) 4 "L2" None false None None fresh.
Proof.
  apply (search_by_embedding_ignores_text (backend fields) (adapter "id")
           bare_adapter (Some "alpha") None query_vector None
           (Some (AsEmbeddings provider)) 4 "L2" None false None None fresh);
    reflexivity.
Defined.

(** A search by embedding without the [return_score] keyword. *)
Lemma similarity_search_default_pairs_witness :
  exists docs w',
    similarity_search (backend fields) (adapter "id") None (Some query_vector)
      4 (with_return_score false no_kwargs) fresh
    = (Return (Docs docs), w')
    /\ similarity_search (backend fields) (adapter "id") None
         (Some query_vector) 4 no_kwargs fresh
       = (Return (DocsWithScores (zip docs (r_score (rows 2)))), w').
Proof.
  apply (similarity_search_default_pairs (backend fields) (adapter "id")
           query_vector 4 no_kwargs fresh (rows 2) objects); reflexivity.
Defined.

(** A raw query through [similarity_search], with and without
    [return_score=False]. *)
Lemma similarity_search_raw_query_default_witness :
  similarity_search (backend fields) (adapter "id") (Some "ignored") None 4
    raw_query_kwargs fresh
  = (Raise tql_scores_error,
     searched fresh (vectorstore (adapter "id"))
       (TqlSearch (kw_tql_query raw_query_kwargs)
          (kw_exec_option raw_query_kwargs)) objects)
  /\ similarity_search (backend fields) (adapter "id") (Some "ignored") None 4
       (with_return_score false raw_query_kwargs) fresh
     = (Return (Docs (zip_with Build_Document (r_text (rows 2))
                        (r_metadata (rows 2)))),
        searched fresh (vectorstore (adapter "id"))
          (TqlSearch (kw_tql_query raw_query_kwargs)
             (kw_exec_option raw_query_kwargs)) objects).
Proof.
  apply (similarity_search_raw_query_default (backend fields) (adapter "id")
           "ignored" 4 raw_query_kwargs fresh (rows 2) objects); reflexivity.
Defined.

(** The store after a search by embedding on the two demo rows. *)
Lemma similarity_search_store_frame_witness :
  dom (store (similarity_search (backend fields) (adapter "id") None
                (Some query_vector) 4 no_kwargs fresh).2) = dom objects
  /\ (forall l : loc, l ∉ r_metadata (rows 2) ->
      store (similarity_search (backend fields) (adapter "id") None
               (Some query_vector) 4 no_kwargs fresh).2 !! l = objects !! l)
  /\ (forall (l : loc) (key : string), key <> "embedding" ->
      (store (similarity_search (backend fields) (adapter "id") None
                (Some query_vector) 4 no_kwargs fresh).2 !! l)
        ≫= (fun d => d !! key)
      = (objects !! l) ≫= (fun d => d !! key)).
Proof.
  apply (similarity_search_store_frame (backend fields) (adapter "id")
           query_vector 4 no_kwargs fresh (rows 2) objects); reflexivity.
Defined.

(** Two rows that share one dict object. *)
Lemma similarity_search_shared_metadata_witness :
  exists w',
    similarity_search (backend_answering shared_rows) (adapter "id") None
      (Some query_vector) 4 (with_return_score false no_kwargs) fresh
    = (Return (Docs (zip_with Build_Document (r_text shared_rows)
                       (r_metadata shared_rows))), w')
    /\ forall (j : nat) (l : loc) (embed : @ndarray numpy),
         r_metadata shared_rows !! j = Some l ->
         r_embedding shared_rows !! j = Some embed ->
         (forall j', (j < j')%nat -> r_metadata shared_rows !! j' <> Some l) ->
         store w' !! l = insert "embedding" (VArray embed) <$> objects !! l.
Proof.
  apply (similarity_search_shared_metadata (backend_answering shared_rows)
           (adapter "id") query_vector 4 no_kwargs fresh shared_rows objects);
    reflexivity.
Defined.

(** Two texts and embeddings, a single metadata entry. *)
Lemma similarity_search_document_count_witness :
  exists docs w',
    similarity_search (backend_answering short_rows) (adapter "id") None
      (Some query_vector) 4 (with_return_score false no_kwargs) fresh
    = (Return (Docs docs), w')
    /\ length docs = 2%nat
    /\ forall (i : nat) (d : Document) (l : loc),
         docs !! i = Some d -> r_metadata short_rows !! i = Some l ->
         metadata d = l.
Proof.
  apply (similarity_search_document_count (backend_answering short_rows)
           (adapter "id") query_vector 4 no_kwargs fresh short_rows objects);
    reflexivity.
Defined.

(** [from_texts] on the demo engine. *)
Lemma from_texts_opens_dataset_witness :
  from_texts (backend fields) ["hello"] (Some provider) None None
    DEFAULT_DATASET_PATH init_defaults fresh
  = (Raise (NameError "embedding"),
     {| calls := calls fresh ++ [COpen {| o_path := DEFAULT_DATASET_PATH;
                                          o_embedding_function := Some provider;
                                          o_read_only := false;
                                          o_token := None;
                                          o_exec_option := "python";
                                          o_verbose := true;
                                          o_kwargs := ∅ |};
                                   CTensors (length (calls fresh))];
        store := store fresh |}).
Proof.
  apply (from_texts_opens_dataset (backend fields) ["hello"] (Some provider)
           None None DEFAULT_DATASET_PATH init_defaults fresh);
    [reflexivity | reflexivity | cbn; lia | reflexivity].
Defined.

(** The demo engine answers [False] to a delete without criteria; the
    adapter still returns True. *)
Example delete_without_criteria :
  vs_delete admin [] [] 0%nat
    {| d_ids := None; d_filter := None; d_delete_all := None |} = inr false
  /\ (delete admin (adapter "id") None None None start).1 = Return true.
Proof. split; reflexivity. Qed.

(** Deleting the same path twice: the second call fails in the engine, not
    with the missing-package error. *)
Example force_delete_twice :
  (force_delete_by_path admin "./deeplake/"
     (force_delete_by_path admin "./deeplake/" start).2).1
  = Raise (EngineError (EngineFailure "no dataset at this path")).
Proof. reflexivity. Qed.
